(** * backend/init_db.py: the one-shot database initializer

    A shallow embedding of [src/backend/init_db.py].  The script is
    straight-line module-level code that talks to three things outside
    of it: the process environment ([os.environ], pre-populated by
    [load_dotenv]), the PostgreSQL driver ([psycopg2]) and standard
    output.  It is embedded as a computation in a state-and-exception
    monad over a [World] that holds those three things; every external
    call is recorded in a trace and may raise.  The script contains no
    [try], no [with] and no [except], so the monad has no handler. *)

From Stdlib Require Import ZArith Ascii String List Bool Lia.
From stdpp Require Import base option list gmap strings.

Open Scope string_scope.
Open Scope list_scope.

(** ** Python values and exceptions *)

Module Py.

(** The Python values the script manipulates: [os.environ.get] yields
    a [str] or [None]; the default of the port is the [int] 5432. *)
Inductive value : Type :=
| None_
| Str (s : string)
| Int (n : Z).

(** Python truthiness, as used by [not dbname]. *)
Definition truthy (v : value) : bool :=
  match v with
  | None_ => false
  | Str s => negb (String.eqb s "")
  | Int n => negb (Z.eqb n 0)
  end.

(** Exceptions.  [ValueError] is the one the script raises itself;
    [DriverError cls msg] stands for whatever a call outside of the
    script raises (class name and message). *)
Inductive exn : Type :=
| ValueError (msg : string)
| DriverError (cls msg : string).

Inductive result (A : Type) : Type :=
| Ok (a : A)
| Raised (e : exn).
Arguments Ok {A} a.
Arguments Raised {A} e.

End Py.

(** ** The database engine

  The part of PostgreSQL the script relies on: a catalog of relations
  and the statement [CREATE TABLE [IF NOT EXISTS] name (columns)].  The
  statement reaches the engine as text, so the engine lexes and parses
  the text the script sends. *)

Module Pg.

(** *** Lexical analysis *)

Inductive token : Type :=
| TLParen
| TRParen
| TComma
| TWord (w : string).

Definition is_blank (c : ascii) : bool :=
  let n := nat_of_ascii c in
  (n =? 32)%nat || (n =? 9)%nat || (n =? 10)%nat || (n =? 13)%nat.

(** Unquoted identifiers and key words are folded to lower case. *)
Definition fold_case (c : ascii) : ascii :=
  let n := nat_of_ascii c in
  if ((65 <=? n)%nat && (n <=? 90)%nat)%bool then ascii_of_nat (n + 32) else c.

Definition flush (cur : list ascii) (rest : list token) : list token :=
  match cur with
  | [] => rest
  | _ => TWord (string_of_list_ascii (rev cur)) :: rest
  end.

Fixpoint lex_go (cs : list ascii) (cur : list ascii) : list token :=
  match cs with
  | [] => flush cur []
  | c :: cs' =>
      if is_blank c then flush cur (lex_go cs' [])
      else if Ascii.eqb c "(" then flush cur (TLParen :: lex_go cs' [])
      else if Ascii.eqb c ")" then flush cur (TRParen :: lex_go cs' [])
      else if Ascii.eqb c "," then flush cur (TComma :: lex_go cs' [])
      else lex_go cs' (fold_case c :: cur)
  end.

Definition lex (sql : string) : list token := lex_go (list_ascii_of_string sql) [].

(** *** Abstract syntax *)

Inductive decl_type : Type :=
| DSerial | DUuid | DText | DFloat | DInt | DTimestamp.

Inductive default_expr : Type :=
| DefaultNextval   (* the sequence behind a SERIAL column *)
| DefaultNow.      (* DEFAULT NOW() *)

Record column_def : Type := ColumnDef {
  cd_name : string;
  cd_type : decl_type;
  cd_not_null : bool;
  cd_primary_key : bool;
  cd_default : option default_expr
}.

Inductive statement : Type :=
| CreateTable (if_not_exists : bool) (name : string) (cols : list column_def).

(** *** Parsing *)

Definition parse_type (w : string) : option decl_type :=
  if String.eqb w "serial" then Some DSerial
  else if String.eqb w "uuid" then Some DUuid
  else if String.eqb w "text" then Some DText
  else if String.eqb w "float" then Some DFloat
  else if String.eqb w "int" then Some DInt
  else if String.eqb w "integer" then Some DInt
  else if String.eqb w "timestamp" then Some DTimestamp
  else None.

Definition is_word (k : string) (t : token) : bool :=
  match t with
  | TWord w => String.eqb w k
  | _ => false
  end.

(** Column constraints: [PRIMARY KEY], [NOT NULL], [NULL],
    [DEFAULT NOW()], in any order. *)
Fixpoint parse_constraints (ts : list token) (c : column_def) : option column_def :=
  match ts with
  | [] => Some c
  | t1 :: r1 =>
      if is_word "null" t1 then parse_constraints r1 c
      else
        match r1 with
        | [] => None
        | t2 :: r2 =>
            if is_word "primary" t1 && is_word "key" t2 then
              parse_constraints r2
                (ColumnDef (cd_name c) (cd_type c) (cd_not_null c) true (cd_default c))
            else if is_word "not" t1 && is_word "null" t2 then
              parse_constraints r2
                (ColumnDef (cd_name c) (cd_type c) true (cd_primary_key c) (cd_default c))
            else
              match r2 with
              | TLParen :: TRParen :: r4 =>
                  if is_word "default" t1 && is_word "now" t2 then
                    parse_constraints r4
                      (ColumnDef (cd_name c) (cd_type c) (cd_not_null c)
                         (cd_primary_key c) (Some DefaultNow))
                  else None
              | _ => None
              end
        end
  end.

Definition parse_column (ts : list token) : option column_def :=
  match ts with
  | TWord name :: TWord ty :: rest =>
      match parse_type ty with
      | Some d => parse_constraints rest (ColumnDef name d false false None)
      | None => None
      end
  | _ => None
  end.

(** Cuts the token list that follows the opening parenthesis of the
    column list at its commas of depth 0, up to the matching closing
    parenthesis; nothing may follow it. *)
Fixpoint split_columns (ts : list token) (depth : nat) (cur : list token)
  : option (list (list token)) :=
  match ts with
  | [] => None
  | TLParen :: r => split_columns r (S depth) (TLParen :: cur)
  | TRParen :: r =>
      match depth with
      | O => match r with [] => Some [rev cur] | _ => None end
      | S d => split_columns r d (TRParen :: cur)
      end
  | TComma :: r =>
      match depth with
      | O => match split_columns r O [] with
             | Some gs => Some (rev cur :: gs)
             | None => None
             end
      | S _ => split_columns r depth (TComma :: cur)
      end
  | t :: r => split_columns r depth (t :: cur)
  end.

Fixpoint parse_all (gs : list (list token)) : option (list column_def) :=
  match gs with
  | [] => Some []
  | g :: gs' =>
      match parse_column g, parse_all gs' with
      | Some c, Some cs => Some (c :: cs)
      | _, _ => None
      end
  end.

Definition parse_column_list (ts : list token) : option (list column_def) :=
  match split_columns ts O [] with
  | Some gs => parse_all gs
  | None => None
  end.

Definition parse_tokens (ts : list token) : option statement :=
  match ts with
  | TWord w1 :: TWord w2 :: TWord w3 :: rest =>
      if String.eqb w1 "create" && String.eqb w2 "table" then
        if String.eqb w3 "if" then
          match rest with
          | TWord w4 :: TWord w5 :: TWord name :: TLParen :: body =>
              if String.eqb w4 "not" && String.eqb w5 "exists" then
                match parse_column_list body with
                | Some cols => Some (CreateTable true name cols)
                | None => None
                end
              else None
          | _ => None
          end
        else
          match rest with
          | TLParen :: body =>
              match parse_column_list body with
              | Some cols => Some (CreateTable false w3 cols)
              | None => None
              end
          | _ => None
          end
      else None
  | _ => None
  end.

Definition parse (sql : string) : option statement := parse_tokens (lex sql).

(** *** The catalog *)

Inductive pg_type : Type :=
| Integer | Uuid | Text | DoublePrecision | Timestamp.

Record column : Type := Column {
  col_name : string;
  col_type : pg_type;
  col_nullable : bool;
  col_primary_key : bool;
  col_default : option default_expr
}.

Inductive datum : Type :=
| Null
| Lit (text : string)
| Generated (e : default_expr).

Record relation : Type := Relation {
  rel_name : string;
  rel_columns : list column;
  rel_rows : list (list datum)
}.

Definition catalog : Type := list relation.

Definition named (name : string) (r : relation) : bool := String.eqb (rel_name r) name.

Definition find_relation (name : string) (cat : catalog) : option relation :=
  List.find (named name) cat.

Definition count_relations (name : string) (cat : catalog) : nat :=
  length (List.filter (named name) cat).

(** Relation names are unique in a catalog. *)
Definition well_formed (cat : catalog) : Prop := NoDup (map rel_name cat).

(** What the engine records for a declared column: SERIAL is an
    integer fed by a sequence and never null, INT is integer, FLOAT is
    double precision, and a primary key is never null. *)
Definition elaborate (c : column_def) : column :=
  {| col_name := cd_name c;
     col_type := match cd_type c with
                 | DSerial | DInt => Integer
                 | DUuid => Uuid
                 | DText => Text
                 | DFloat => DoublePrecision
                 | DTimestamp => Timestamp
                 end;
     col_nullable := negb (cd_not_null c || cd_primary_key c
                           || match cd_type c with DSerial => true | _ => false end);
     col_primary_key := cd_primary_key c;
     col_default := match cd_type c with
                    | DSerial => Some DefaultNextval
                    | _ => cd_default c
                    end |}.

Fixpoint has_duplicate (names : list string) : bool :=
  match names with
  | [] => false
  | n :: ns => existsb (String.eqb n) ns || has_duplicate ns
  end.

(** *** Executing a statement

    With IF NOT EXISTS an existing relation of that name makes the
    statement a no-op (the engine only emits a notice); without it the
    statement fails.  A new table starts with no rows. *)
Definition execute (st : statement) (cat : catalog) : Py.result catalog :=
  match st with
  | CreateTable if_not_exists name cols =>
      match find_relation name cat with
      | Some _ =>
          if if_not_exists then Py.Ok cat
          else Py.Raised (Py.DriverError "DuplicateTable" name)
      | None =>
          if has_duplicate (map cd_name cols) then
            Py.Raised (Py.DriverError "DuplicateColumn" name)
          else if (1 <? length (List.filter cd_primary_key cols))%nat then
            Py.Raised (Py.DriverError "InvalidTableDefinition" name)
          else Py.Ok (cat ++ [Relation name (map elaborate cols) []])
      end
  end.

(** *** Inserting a row (done by the collaborators, not by the script)

    A row is given as column/value pairs.  The engine first converts the
    given values to the types of their columns and refuses a text that
    is not a UUID, an integer out of range, a column it does not know.  A
    column that is not given then takes its default, or NULL when it has
    none, and the row is rejected when a column that is not nullable
    would store NULL.  The keys are checked last.  Only the NOT NULL
    check is spelled out: what the conversion and the key check raise is
    left to [checks], the way [fault] says what a call raises. *)
Record checks : Type := Checks {
  input_fault : list (string * datum) -> list column -> option Py.exn;
  key_fault : list column -> list (list datum) -> list datum -> option Py.exn
}.

Fixpoint assoc (k : string) (kvs : list (string * datum)) : option datum :=
  match kvs with
  | [] => None
  | (k', d) :: r => if String.eqb k' k then Some d else assoc k r
  end.

Definition stored_value (given : list (string * datum)) (c : column) : datum :=
  match assoc (col_name c) given with
  | Some d => d
  | None =>
      match col_default c with
      | Some e => Generated e
      | None => Null
      end
  end.

Definition is_null (d : datum) : bool :=
  match d with Null => true | _ => false end.

Definition violates (given : list (string * datum)) (c : column) : bool :=
  negb (col_nullable c) && is_null (stored_value given c).

Definition insert (ck : checks) (given : list (string * datum)) (r : relation)
  : Py.result relation :=
  match input_fault ck given (rel_columns r) with
  | Some e => Py.Raised e
  | None =>
      match List.find (violates given) (rel_columns r) with
      | Some c => Py.Raised (Py.DriverError "NotNullViolation" (col_name c))
      | None =>
          let row := map (stored_value given) (rel_columns r) in
          match key_fault ck (rel_columns r) (rel_rows r) row with
          | Some e => Py.Raised e
          | None => Py.Ok (Relation (rel_name r) (rel_columns r) (rel_rows r ++ [row]))
          end
      end
  end.

End Pg.

(** ** The world the script runs in *)

(** The keyword arguments of [psycopg2.connect]. *)
Record conn_params : Type := ConnParams {
  cp_dbname : Py.value;
  cp_user : Py.value;
  cp_password : Py.value;
  cp_host : Py.value;
  cp_port : Py.value
}.

(** The calls that leave the script. *)
Inductive call : Type :=
| CallConnect (p : conn_params)      (* psycopg2.connect(...) *)
| CallCursor                         (* conn.cursor() *)
| CallExecute (sql : string)         (* cursor.execute(sql) *)
| CallCommit                         (* conn.commit() *)
| CallCursorClose                    (* cursor.close() *)
| CallConnClose                      (* conn.close() *)
| CallPrint (line : string).         (* print(line) *)

(** [environ] is [os.environ]; [dotenv_values] is the content of the
    [.env] file as [load_dotenv] reads it (empty when there is none);
    [fault c] is the exception the call [c] raises, if it does;
    [database] is the committed catalog of the database; [connection]
    is the uncommitted view of the open connection, [None] when no
    connection is open; [trace] lists the calls made so far, oldest
    first, whether they returned or raised. *)
Record World : Type := mkWorld {
  environ : gmap string string;
  dotenv_values : gmap string string;
  fault : call -> option Py.exn;
  database : Pg.catalog;
  connection : option Pg.catalog;
  cursor_open : bool;
  stdout : list string;
  trace : list call
}.

Definition set_environ (e : gmap string string) (w : World) : World :=
  mkWorld e (dotenv_values w) (fault w) (database w) (connection w)
    (cursor_open w) (stdout w) (trace w).
Definition set_database (d : Pg.catalog) (w : World) : World :=
  mkWorld (environ w) (dotenv_values w) (fault w) d (connection w)
    (cursor_open w) (stdout w) (trace w).
Definition set_connection (c : option Pg.catalog) (w : World) : World :=
  mkWorld (environ w) (dotenv_values w) (fault w) (database w) c
    (cursor_open w) (stdout w) (trace w).
Definition set_cursor_open (b : bool) (w : World) : World :=
  mkWorld (environ w) (dotenv_values w) (fault w) (database w) (connection w)
    b (stdout w) (trace w).
Definition set_stdout (o : list string) (w : World) : World :=
  mkWorld (environ w) (dotenv_values w) (fault w) (database w) (connection w)
    (cursor_open w) o (trace w).
Definition set_trace (t : list call) (w : World) : World :=
  mkWorld (environ w) (dotenv_values w) (fault w) (database w) (connection w)
    (cursor_open w) (stdout w) t.

(** ** The script monad: state and exceptions, no handler *)

Definition Script (A : Type) : Type := World -> Py.result A * World.

#[global] Instance script_ret : MRet Script :=
  fun A (a : A) (w : World) => (Py.Ok a, w).

#[global] Instance script_bind : MBind Script :=
  fun A B (k : A -> Script B) (m : Script A) (w : World) =>
    match m w with
    | (Py.Ok a, w') => k a w'
    | (Py.Raised e, w') => (Py.Raised e, w')
    end.

Definition raise {A : Type} (e : Py.exn) : Script A :=
  fun w => (Py.Raised e, w).

(** What a call does to the world once it is known not to raise. *)
Definition effect {A : Type} (f : World -> Py.result A * World) : Script A := f.

(** Every call that leaves the script is first recorded, and then
    either raises what the world says it raises or takes effect. *)
Definition log (c : call) : Script unit :=
  fun w => (Py.Ok tt, set_trace (trace w ++ [c]) w).

Definition may_raise (c : call) : Script unit :=
  fun w =>
    match fault w c with
    | Some e => (Py.Raised e, w)
    | None => (Py.Ok tt, w)
    end.

Definition external (c : call) : Script unit := log c ;; may_raise c.

(** ** The library calls of the script *)

(** [load_dotenv()]: a variable of the [.env] file is set unless the
    environment already has it. *)
Definition load_dotenv : Script unit :=
  fun w => (Py.Ok tt, set_environ (environ w ∪ dotenv_values w) w).

(** [os.environ.get(key)] and [os.environ.get(key, default)]: the
    value bound to [key], or [default] ([None] when not given). *)
Definition getenv (e : gmap string string) (key : string) (default : Py.value) : Py.value :=
  match e !! key with
  | Some s => Py.Str s
  | None => default
  end.

Definition os_environ_get (key : string) (default : Py.value) : Script Py.value :=
  fun w => (Py.Ok (getenv (environ w) key default), w).

(** The handles [conn] and [cursor]; a run has at most one of each. *)
Inductive conn_handle : Type := ConnHandle.
Inductive cursor_handle : Type := CursorHandle.

Definition interface_error (msg : string) : Py.exn := Py.DriverError "InterfaceError" msg.

Definition psycopg2_connect (dbname user password host port : Py.value) : Script conn_handle :=
  external (CallConnect (ConnParams dbname user password host port)) ;;
  effect (fun w => (Py.Ok ConnHandle, set_connection (Some (database w)) w)).

Definition conn_cursor (c : conn_handle) : Script cursor_handle :=
  external CallCursor ;;
  effect (fun w =>
    match connection w with
    | Some _ => (Py.Ok CursorHandle, set_cursor_open true w)
    | None => (Py.Raised (interface_error "connection already closed"), w)
    end).

Definition cursor_execute (c : cursor_handle) (sql : string) : Script unit :=
  external (CallExecute sql) ;;
  effect (fun w =>
    match connection w with
    | Some work =>
        if cursor_open w then
          match Pg.parse sql with
          | Some st =>
              match Pg.execute st work with
              | Py.Ok work' => (Py.Ok tt, set_connection (Some work') w)
              | Py.Raised e => (Py.Raised e, w)
              end
          | None => (Py.Raised (Py.DriverError "SyntaxError" sql), w)
          end
        else (Py.Raised (interface_error "cursor already closed"), w)
    | None => (Py.Raised (interface_error "connection already closed"), w)
    end).

Definition conn_commit (c : conn_handle) : Script unit :=
  external CallCommit ;;
  effect (fun w =>
    match connection w with
    | Some work => (Py.Ok tt, set_database work w)
    | None => (Py.Raised (interface_error "connection already closed"), w)
    end).

Definition cursor_close (c : cursor_handle) : Script unit :=
  external CallCursorClose ;;
  effect (fun w => (Py.Ok tt, set_cursor_open false w)).

Definition conn_close (c : conn_handle) : Script unit :=
  external CallConnClose ;;
  effect (fun w => (Py.Ok tt, set_connection None w)).

Definition print (line : string) : Script unit :=
  external (CallPrint line) ;;
  effect (fun w => (Py.Ok tt, set_stdout (stdout w ++ [line]) w)).

(** ** The script, [backend/init_db.py] *)

Definition create_predictions_sql : string := "
CREATE TABLE IF NOT EXISTS predictions (
    id SERIAL PRIMARY KEY,
    prediction_id UUID NOT NULL,
    image_path TEXT,
    class_name TEXT,
    confidence FLOAT,
    bbox_left INT,
    bbox_top INT,
    bbox_width INT,
    bbox_height INT,
    created_at TIMESTAMP DEFAULT NOW()
)
".

Definition missing_credentials : string :=
  "POSTGRES_DB, POSTGRES_USER, and POSTGRES_PASSWORD must be set in environment variables.".

Definition success_line : string := "Database initialized successfully.".

Definition init_db : Script unit :=
  load_dotenv ;;
  dbname ← os_environ_get "POSTGRES_DB" Py.None_ ;
  user ← os_environ_get "POSTGRES_USER" Py.None_ ;
  password ← os_environ_get "POSTGRES_PASSWORD" Py.None_ ;
  host ← os_environ_get "POSTGRES_HOST" (Py.Str "localhost") ;
  port ← os_environ_get "POSTGRES_PORT" (Py.Int 5432) ;
  (if negb (Py.truthy dbname) || negb (Py.truthy user) || negb (Py.truthy password)
   then raise (Py.ValueError missing_credentials)
   else mret tt) ;;
  conn ← psycopg2_connect dbname user password host port ;
  cursor ← conn_cursor conn ;
  cursor_execute cursor create_predictions_sql ;;
  conn_commit conn ;;
  cursor_close cursor ;;
  conn_close conn ;;
  print success_line.

(** A process starts with no connection and nothing printed. *)
Definition boot (env dotenv : gmap string string) (f : call -> option Py.exn)
    (db : Pg.catalog) : World :=
  mkWorld env dotenv f db None false [] [].

Definition run (env dotenv : gmap string string) (f : call -> option Py.exn)
    (db : Pg.catalog) : Py.result unit * World :=
  init_db (boot env dotenv f db).

(** The exit status of the interpreter: 0 when the module ran to its
    end, 1 when an exception reached the top level. *)
Definition exit_status {A : Type} (r : Py.result A) : Z :=
  match r with
  | Py.Ok _ => 0
  | Py.Raised _ => 1
  end.

(** ** Vocabulary for the properties of a run *)

(** What the statement of the script parses to. *)
Definition predictions_columns : list Pg.column_def :=
  [ Pg.ColumnDef "id" Pg.DSerial false true None;
    Pg.ColumnDef "prediction_id" Pg.DUuid true false None;
    Pg.ColumnDef "image_path" Pg.DText false false None;
    Pg.ColumnDef "class_name" Pg.DText false false None;
    Pg.ColumnDef "confidence" Pg.DFloat false false None;
    Pg.ColumnDef "bbox_left" Pg.DInt false false None;
    Pg.ColumnDef "bbox_top" Pg.DInt false false None;
    Pg.ColumnDef "bbox_width" Pg.DInt false false None;
    Pg.ColumnDef "bbox_height" Pg.DInt false false None;
    Pg.ColumnDef "created_at" Pg.DTimestamp false false (Some Pg.DefaultNow) ].

(** The relation the statement creates when there is none of that name. *)
Definition predictions_table : Pg.relation :=
  Pg.Relation "predictions" (map Pg.elaborate predictions_columns) [].

(** The catalog after the statement. *)
Definition ensure_predictions (db : Pg.catalog) : Pg.catalog :=
  match Pg.find_relation "predictions" db with
  | Some _ => db
  | None => db ++ [predictions_table]
  end.

(** The arguments the script passes to [psycopg2.connect] when the
    environment after [load_dotenv] is [e]. *)
Definition connect_args (e : gmap string string) : conn_params :=
  ConnParams (getenv e "POSTGRES_DB" Py.None_)
             (getenv e "POSTGRES_USER" Py.None_)
             (getenv e "POSTGRES_PASSWORD" Py.None_)
             (getenv e "POSTGRES_HOST" (Py.Str "localhost"))
             (getenv e "POSTGRES_PORT" (Py.Int 5432)).

(** The guard of the script's [if]. *)
Definition credentials_missing (e : gmap string string) : bool :=
  negb (Py.truthy (getenv e "POSTGRES_DB" Py.None_))
  || negb (Py.truthy (getenv e "POSTGRES_USER" Py.None_))
  || negb (Py.truthy (getenv e "POSTGRES_PASSWORD" Py.None_)).

(** The calls of a run that nothing interrupts, in order. *)
Definition script_calls (p : conn_params) : list call :=
  [ CallConnect p; CallCursor; CallExecute create_predictions_sql; CallCommit;
    CallCursorClose; CallConnClose; CallPrint success_line ].

(** A variable the script treats as not supplied. *)
Definition absent_or_empty (e : gmap string string) (key : string) : Prop :=
  e !! key = None ∨ e !! key = Some "".

(** A variable that is set to a non-empty string. *)
Definition supplied (e : gmap string string) (key : string) : Prop :=
  ∃ v, e !! key = Some v ∧ v ≠ "".

Definition required_supplied (e : gmap string string) : Prop :=
  supplied e "POSTGRES_DB" ∧ supplied e "POSTGRES_USER" ∧ supplied e "POSTGRES_PASSWORD".

(** The first call of a list that raises, with what it raises. *)
Fixpoint first_fault (f : call -> option Py.exn) (cs : list call) : option (call * Py.exn) :=
  match cs with
  | [] => None
  | c :: r =>
      match f c with
      | Some x => Some (c, x)
      | None => first_fault f r
      end
  end.

Definition is_execute (c : call) : bool :=
  match c with CallExecute _ => true | _ => false end.

Definition is_connect (c : call) : bool :=
  match c with CallConnect _ => true | _ => false end.

Definition is_release (c : call) : bool :=
  match c with CallCursorClose | CallConnClose => true | _ => false end.

(** The script obtained a connection: the guard let it through and
    [psycopg2.connect] returned. *)
Definition reaches_connected (env dotenv : gmap string string)
    (f : call -> option Py.exn) : Prop :=
  credentials_missing (env ∪ dotenv) = false
  ∧ f (CallConnect (connect_args (env ∪ dotenv))) = None.

(** Both handles were released by the script, the cursor before the
    connection. *)
Definition released_in_order (w : World) : Prop :=
  cursor_open w = false
  ∧ connection w = None
  ∧ ∃ t1 t2 t3, trace w = t1 ++ CallCursorClose :: t2 ++ CallConnClose :: t3.

(** The run sent exactly one statement to the database. *)
Definition executes_exactly_one (w : World) : Prop :=
  length (List.filter is_execute (trace w)) = 1%nat.

(** The calls of a list that are made when they are made in order and
    the first one that raises ends the run: that one included. *)
Fixpoint upto_first_fault (f : call -> option Py.exn) (cs : list call) : list call :=
  match cs with
  | [] => []
  | c :: r =>
      match f c with
      | Some _ => [c]
      | None => c :: upto_first_fault f r
      end
  end.

(** The calls of the script up to [conn.commit()]: an exception raised
    by one of them leaves the script before the commit has returned. *)
Definition precedes_commit_return (c : call) : bool :=
  match c with
  | CallConnect _ | CallCursor | CallExecute _ | CallCommit => true
  | _ => false
  end.

(** What [os.environ.get] finds for [key] after [load_dotenv], told
    from the two places a value can come from. *)
Definition resolve (env dotenv : gmap string string) (key : string)
    (default : Py.value) : Py.value :=
  match env !! key with
  | Some v => Py.Str v
  | None =>
      match dotenv !! key with
      | Some v => Py.Str v
      | None => default
      end
  end.

(** ** Scenarios *)

(** The environment of the scenarios of the specification. *)
Definition env_detect : gmap string string :=
  <["POSTGRES_DB" := "detect"]> (<["POSTGRES_USER" := "u"]> (<["POSTGRES_PASSWORD" := "p"]> ∅)).

(** The same with POSTGRES_DB missing. *)
Definition env_without_db : gmap string string :=
  <["POSTGRES_USER" := "u"]> (<["POSTGRES_PASSWORD" := "p"]> ∅).

(** A world in which no call raises. *)
Definition no_fault : call -> option Py.exn := fun _ => None.

(** A world in which the statement is refused, every other call
    returning normally. *)
Definition execute_fails : call -> option Py.exn :=
  fun c =>
    match c with
    | CallExecute _ =>
        Some (Py.DriverError "InsufficientPrivilege" "permission denied for schema public")
    | _ => None
    end.

(** A world in which the server cannot be reached. *)
Definition connect_fails : call -> option Py.exn :=
  fun c =>
    match c with
    | CallConnect _ => Some (Py.DriverError "OperationalError" "could not connect to server")
    | _ => None
    end.

(** POSTGRES_HOST set to the empty string and POSTGRES_PORT set. *)
Definition env_empty_host : gmap string string :=
  <["POSTGRES_HOST" := ""]> (<["POSTGRES_PORT" := "6543"]> env_detect).

(** A table of another shape under the name [predictions], with a row. *)
Definition legacy_predictions : Pg.relation :=
  Pg.Relation "predictions"
    [Pg.Column "label" Pg.Text true false None]
    [[Pg.Lit "cat"]].

(** A world in which [cursor.close()] raises after the commit. *)
Definition cursor_close_fails : call -> option Py.exn :=
  fun c =>
    match c with
    | CallCursorClose => Some (Py.DriverError "InterfaceError" "cursor.close failed")
    | _ => None
    end.

(** A [.env] file that names a database and another user. *)
Definition dotenv_detect : gmap string string :=
  <["POSTGRES_DB" := "detect"]> (<["POSTGRES_USER" := "other"]> ∅).

(** A database that holds another table, with a row. *)
Definition images_table : Pg.relation :=
  Pg.Relation "images" [Pg.Column "path" Pg.Text false false None] [[Pg.Lit "a.png"]].

Arguments Pg.parse : simpl never.

(** * Properties *)

(** ** Symbolic execution of the script *)

Lemma parse_create_predictions :
  Pg.parse create_predictions_sql
  = Some (Pg.CreateTable true "predictions" predictions_columns).
Proof. vm_compute. reflexivity. Qed.

Lemma execute_create_predictions (db : Pg.catalog) :
  Pg.execute (Pg.CreateTable true "predictions" predictions_columns) db
  = Py.Ok (ensure_predictions db).
Proof.
  unfold Pg.execute, ensure_predictions.
  destruct (Pg.find_relation "predictions" db); reflexivity.
Qed.

Section Execution.

Variables env dotenv : gmap string string.
Variable f : call -> option Py.exn.
Variable db : Pg.catalog.

Let e := env ∪ dotenv.
Let p := connect_args e.
Let db' := ensure_predictions db.

(** The script has nine ways to end: the guard, one per call that
    raises, and the normal end. *)
Lemma run_unfold :
  run env dotenv f db =
  if credentials_missing e then
    (Py.Raised (Py.ValueError missing_credentials),
     mkWorld e dotenv f db None false [] [])
  else
    match f (CallConnect p) with
    | Some x => (Py.Raised x, mkWorld e dotenv f db None false [] (take 1 (script_calls p)))
    | None =>
    match f CallCursor with
    | Some x => (Py.Raised x, mkWorld e dotenv f db (Some db) false [] (take 2 (script_calls p)))
    | None =>
    match f (CallExecute create_predictions_sql) with
    | Some x => (Py.Raised x, mkWorld e dotenv f db (Some db) true [] (take 3 (script_calls p)))
    | None =>
    match f CallCommit with
    | Some x => (Py.Raised x, mkWorld e dotenv f db (Some db') true [] (take 4 (script_calls p)))
    | None =>
    match f CallCursorClose with
    | Some x => (Py.Raised x, mkWorld e dotenv f db' (Some db') true [] (take 5 (script_calls p)))
    | None =>
    match f CallConnClose with
    | Some x => (Py.Raised x, mkWorld e dotenv f db' (Some db') false [] (take 6 (script_calls p)))
    | None =>
    match f (CallPrint success_line) with
    | Some x => (Py.Raised x, mkWorld e dotenv f db' None false [] (script_calls p))
    | None => (Py.Ok tt, mkWorld e dotenv f db' None false [success_line] (script_calls p))
    end end end end end end end.
Proof.
  unfold run, init_db, boot.
  unfold psycopg2_connect, conn_cursor, cursor_execute, conn_commit, cursor_close,
    conn_close, print, external, log, may_raise, effect, raise, load_dotenv,
    os_environ_get, mbind, script_bind, mret, script_ret.
  cbn -[getenv union Pg.parse].
  fold e. fold (connect_args e). fold p. fold (credentials_missing e).
  destruct (credentials_missing e); [reflexivity|].
  cbn -[getenv union Pg.parse].
  destruct (f (CallConnect p)); [reflexivity|].
  cbn -[getenv union Pg.parse].
  destruct (f CallCursor); [reflexivity|].
  cbn -[getenv union Pg.parse].
  destruct (f (CallExecute create_predictions_sql)); [reflexivity|].
  cbn -[getenv union Pg.parse].
  rewrite parse_create_predictions, execute_create_predictions.
  fold db'.
  cbn -[getenv union Pg.parse].
  destruct (f CallCommit); [reflexivity|].
  cbn -[getenv union Pg.parse].
  destruct (f CallCursorClose); [reflexivity|].
  cbn -[getenv union Pg.parse].
  destruct (f CallConnClose); [reflexivity|].
  cbn -[getenv union Pg.parse].
  destruct (f (CallPrint success_line)); reflexivity.
Qed.

End Execution.

(** The engine on a few statements. *)

Example parse_lower_case :
  Pg.parse "create table t (a int not null, b text)"
  = Some (Pg.CreateTable false "t"
            [Pg.ColumnDef "a" Pg.DInt true false None;
             Pg.ColumnDef "b" Pg.DText false false None]).
Proof. vm_compute. reflexivity. Qed.

Example parse_rejects_unclosed_list :
  Pg.parse "CREATE TABLE IF NOT EXISTS predictions (id SERIAL PRIMARY KEY" = None.
Proof. vm_compute. reflexivity. Qed.

Example plain_create_fails_on_existing_table :
  Pg.execute (Pg.CreateTable false "predictions" predictions_columns) [legacy_predictions]
  = Py.Raised (Py.DriverError "DuplicateTable" "predictions").
Proof. reflexivity. Qed.

(** The scenarios of the specification. *)

Example scenario_table_absent :
  run env_detect ∅ no_fault []
  = (Py.Ok tt,
     mkWorld env_detect ∅ no_fault [predictions_table] None false [success_line]
       (script_calls (ConnParams (Py.Str "detect") (Py.Str "u") (Py.Str "p")
                        (Py.Str "localhost") (Py.Int 5432)))).
Proof. rewrite run_unfold. vm_compute. reflexivity. Qed.

Example scenario_table_present :
  run env_detect ∅ no_fault [legacy_predictions]
  = (Py.Ok tt,
     mkWorld env_detect ∅ no_fault [legacy_predictions] None false [success_line]
       (script_calls (ConnParams (Py.Str "detect") (Py.Str "u") (Py.Str "p")
                        (Py.Str "localhost") (Py.Int 5432)))).
Proof. rewrite run_unfold. vm_compute. reflexivity. Qed.

Example scenario_missing_db :
  run env_without_db ∅ no_fault []
  = (Py.Raised (Py.ValueError missing_credentials),
     mkWorld env_without_db ∅ no_fault [] None false [] []).
Proof. rewrite run_unfold. vm_compute. reflexivity. Qed.

Example scenario_unreachable :
  run env_detect ∅ connect_fails []
  = (Py.Raised (Py.DriverError "OperationalError" "could not connect to server"),
     mkWorld env_detect ∅ connect_fails [] None false []
       [CallConnect (ConnParams (Py.Str "detect") (Py.Str "u") (Py.Str "p")
                       (Py.Str "localhost") (Py.Int 5432))]).
Proof. rewrite run_unfold. vm_compute. reflexivity. Qed.

(** A [.env] file supplies what the environment lacks and never
    overrides it. *)
Example scenario_dotenv :
  trace (snd (run env_without_db
                (<["POSTGRES_DB" := "detect"]> (<["POSTGRES_USER" := "other"]> ∅))
                connect_fails []))
  = [CallConnect (ConnParams (Py.Str "detect") (Py.Str "u") (Py.Str "p")
                    (Py.Str "localhost") (Py.Int 5432))].
Proof. rewrite run_unfold. vm_compute. reflexivity. Qed.

(** ** Environments *)

Lemma truthy_getenv (e : gmap string string) (key : string) :
  Py.truthy (getenv e key Py.None_) = true ↔ supplied e key.
Proof.
  unfold getenv, supplied. destruct (e !! key) as [v|]; simpl.
  - rewrite negb_true_iff, String.eqb_neq. split.
    + intros Hv. exists v. split; [reflexivity | exact Hv].
    + intros (v' & Heq & Hv). congruence.
  - split; [discriminate | intros (v & Heq & _); discriminate].
Qed.

Lemma falsy_getenv (e : gmap string string) (key : string) :
  Py.truthy (getenv e key Py.None_) = false ↔ absent_or_empty e key.
Proof.
  unfold getenv, absent_or_empty. destruct (e !! key) as [v|]; simpl.
  - rewrite negb_false_iff, String.eqb_eq. split.
    + intros ->. right. reflexivity.
    + intros [Hn | Hs]; congruence.
  - split; [intros _; left; reflexivity | reflexivity].
Qed.

Lemma credentials_missing_true (e : gmap string string) :
  credentials_missing e = true ↔
  absent_or_empty e "POSTGRES_DB" ∨ absent_or_empty e "POSTGRES_USER"
  ∨ absent_or_empty e "POSTGRES_PASSWORD".
Proof.
  unfold credentials_missing.
  rewrite !orb_true_iff, !negb_true_iff, !falsy_getenv. tauto.
Qed.

Lemma credentials_missing_false (e : gmap string string) :
  credentials_missing e = false ↔ required_supplied e.
Proof.
  unfold credentials_missing, required_supplied.
  rewrite !orb_false_iff, !negb_false_iff, !truthy_getenv. tauto.
Qed.

(** Without a [.env] file the script sees the environment of the process. *)
Lemma load_dotenv_no_file (env : gmap string string) : env ∪ ∅ = env.
Proof. apply (right_id_L ∅ (∪)). Qed.

(** ** Validation *)

(** C1.  Whenever one of POSTGRES_DB, POSTGRES_USER, POSTGRES_PASSWORD is
    absent from the environment the script reads (the process environment
    as [load_dotenv] leaves it) or bound to the empty string, the run ends
    in the [ValueError] of the script, the exit status is not 0, and no
    call has left the script: in particular [psycopg2.connect] was not
    called, and the database is as it was. *)
Theorem missing_credentials_fail_before_connect
    (env dotenv : gmap string string) (f : call -> option Py.exn) (db : Pg.catalog) :
  absent_or_empty (env ∪ dotenv) "POSTGRES_DB"
  ∨ absent_or_empty (env ∪ dotenv) "POSTGRES_USER"
  ∨ absent_or_empty (env ∪ dotenv) "POSTGRES_PASSWORD" →
  let r := run env dotenv f db in
  fst r = Py.Raised (Py.ValueError missing_credentials)
  ∧ exit_status (fst r) ≠ 0%Z
  ∧ trace (snd r) = []
  ∧ List.filter is_connect (trace (snd r)) = []
  ∧ connection (snd r) = None
  ∧ database (snd r) = db.
Proof.
  intros Hmiss r. subst r.
  apply credentials_missing_true in Hmiss.
  rewrite run_unfold, Hmiss. simpl.
  repeat split; try reflexivity. discriminate.
Qed.

Lemma missing_credentials_fail_before_connect_witness :
  let r := run env_without_db ∅ no_fault [] in
  fst r = Py.Raised (Py.ValueError missing_credentials)
  ∧ exit_status (fst r) ≠ 0%Z
  ∧ trace (snd r) = []
  ∧ List.filter is_connect (trace (snd r)) = []
  ∧ connection (snd r) = None
  ∧ database (snd r) = [].
Proof.
  apply (missing_credentials_fail_before_connect env_without_db ∅ no_fault []).
  left. left. vm_compute. reflexivity.
Defined.

(** ** Case analysis on the end of a run *)

Ltac run_cases env dotenv f db :=
  let Hguard := fresh "Hguard" in
  let x := fresh "x" in
  pose proof (run_unfold env dotenv f db) as Hrun; cbv zeta in Hrun;
  destruct (credentials_missing (env ∪ dotenv)) eqn:Hguard;
  [| destruct (f (CallConnect (connect_args (env ∪ dotenv)))) as [x|] eqn:Hconnect;
     [| destruct (f CallCursor) as [x|] eqn:Hcursor;
        [| destruct (f (CallExecute create_predictions_sql)) as [x|] eqn:Hexecute;
           [| destruct (f CallCommit) as [x|] eqn:Hcommit;
              [| destruct (f CallCursorClose) as [x|] eqn:Hcursorclose;
                 [| destruct (f CallConnClose) as [x|] eqn:Hconnclose;
                    [| destruct (f (CallPrint success_line)) as [x|] eqn:Hprint]]]]]]];
  rewrite Hrun in *; clear Hrun; cbn [fst snd trace database connection cursor_open
    stdout environ exit_status take script_calls] in *.

(** ** Connection parameters *)

(** C5.  With the three required variables supplied and POSTGRES_HOST and
    POSTGRES_PORT unset, the first call that leaves the script is
    [psycopg2.connect] with host ["localhost"] and port [5432] (the
    integer), and the credentials as read. *)
Theorem unset_host_port_default_to_localhost_5432
    (env dotenv : gmap string string) (f : call -> option Py.exn) (db : Pg.catalog)
    (d u pw : string) :
  (env ∪ dotenv) !! "POSTGRES_DB" = Some d → d ≠ "" →
  (env ∪ dotenv) !! "POSTGRES_USER" = Some u → u ≠ "" →
  (env ∪ dotenv) !! "POSTGRES_PASSWORD" = Some pw → pw ≠ "" →
  (env ∪ dotenv) !! "POSTGRES_HOST" = None →
  (env ∪ dotenv) !! "POSTGRES_PORT" = None →
  ∃ rest,
    trace (snd (run env dotenv f db))
    = CallConnect (ConnParams (Py.Str d) (Py.Str u) (Py.Str pw)
                     (Py.Str "localhost") (Py.Int 5432)) :: rest.
Proof.
  intros Hd Hd' Hu Hu' Hp Hp' Hhost Hport.
  assert (Hargs : connect_args (env ∪ dotenv)
                  = ConnParams (Py.Str d) (Py.Str u) (Py.Str pw)
                      (Py.Str "localhost") (Py.Int 5432)).
  { unfold connect_args, getenv. rewrite Hd, Hu, Hp, Hhost, Hport. reflexivity. }
  assert (Hok : credentials_missing (env ∪ dotenv) = false).
  { apply credentials_missing_false. repeat split; eexists; eauto. }
  run_cases env dotenv f db; try discriminate; rewrite Hargs; eexists; reflexivity.
Qed.

Lemma unset_host_port_default_to_localhost_5432_witness :
  ∃ rest,
    trace (snd (run env_detect ∅ no_fault []))
    = CallConnect (ConnParams (Py.Str "detect") (Py.Str "u") (Py.Str "p")
                     (Py.Str "localhost") (Py.Int 5432)) :: rest.
Proof.
  apply (unset_host_port_default_to_localhost_5432 env_detect ∅ no_fault [] "detect" "u" "p");
    solve [ vm_compute; reflexivity | discriminate ].
Defined.

(** C10.  The defaults of POSTGRES_HOST and POSTGRES_PORT apply only when
    the variable is unset.  With the required variables supplied, the
    host passed to [psycopg2.connect] is the value of POSTGRES_HOST
    whenever it is set, the empty string included, and ["localhost"]
    only when it is unset; the port is the string value of POSTGRES_PORT
    when set and the integer [5432] when unset.  A required variable set
    to the empty string, by contrast, is refused like an absent one. *)
Theorem host_port_defaults_only_when_unset
    (env dotenv : gmap string string) (f : call -> option Py.exn) (db : Pg.catalog) :
  let e := env ∪ dotenv in
  let r := run env dotenv f db in
  (required_supplied e →
   ∃ args rest,
     trace (snd r) = CallConnect args :: rest
     ∧ cp_host args = match e !! "POSTGRES_HOST" with
                      | Some h => Py.Str h
                      | None => Py.Str "localhost"
                      end
     ∧ cp_port args = match e !! "POSTGRES_PORT" with
                      | Some s => Py.Str s
                      | None => Py.Int 5432
                      end
     ∧ (e !! "POSTGRES_HOST" = Some "" →
        cp_host args = Py.Str "" ∧ cp_host args ≠ Py.Str "localhost"))
  ∧ (e !! "POSTGRES_DB" = Some "" ∨ e !! "POSTGRES_USER" = Some ""
     ∨ e !! "POSTGRES_PASSWORD" = Some "" →
     fst r = Py.Raised (Py.ValueError missing_credentials) ∧ trace (snd r) = []).
Proof.
  intros e r. subst e r. split.
  - intros Hreq. apply credentials_missing_false in Hreq.
    exists (connect_args (env ∪ dotenv)).
    assert (Hempty : (env ∪ dotenv) !! "POSTGRES_HOST" = Some "" →
                     cp_host (connect_args (env ∪ dotenv)) = Py.Str ""
                     ∧ cp_host (connect_args (env ∪ dotenv)) ≠ Py.Str "localhost").
    { intros Hh. unfold connect_args, getenv. simpl. rewrite Hh. split; [reflexivity | discriminate]. }
    run_cases env dotenv f db; try discriminate;
      eexists; (split; [reflexivity | split; [reflexivity | split; [reflexivity | exact Hempty]]]).
  - intros Hempty.
    assert (Hmiss : credentials_missing (env ∪ dotenv) = true).
    { apply credentials_missing_true. unfold absent_or_empty. tauto. }
    rewrite run_unfold, Hmiss. split; reflexivity.
Qed.

Lemma host_port_defaults_only_when_unset_witness :
  ∃ rest,
    trace (snd (run env_empty_host ∅ no_fault []))
    = CallConnect (ConnParams (Py.Str "detect") (Py.Str "u") (Py.Str "p")
                     (Py.Str "") (Py.Str "6543")) :: rest.
Proof.
  destruct (host_port_defaults_only_when_unset env_empty_host ∅ no_fault []) as [Hset _].
  destruct Hset as (args & rest & Htrace & _).
  - repeat split; eexists; (split; [vm_compute; reflexivity | discriminate]).
  - exists rest. rewrite Htrace. f_equal.
    vm_compute in Htrace. injection Htrace as <- _. reflexivity.
Defined.

(** ** Failures *)

(** C6.  The script handles no exception.  Whatever the first call that
    raises is (connecting, executing the statement and committing among
    them), the run ends in the very exception that call raised, the exit
    status is not 0, and no call is made after it.  When that call is
    [psycopg2.connect], it is the only call of the run: no statement
    reached the database, which is as it was. *)
Theorem driver_errors_propagate_unchanged
    (env dotenv : gmap string string) (f : call -> option Py.exn) (db : Pg.catalog)
    (c : call) (x : Py.exn) :
  required_supplied (env ∪ dotenv) →
  first_fault f (script_calls (connect_args (env ∪ dotenv))) = Some (c, x) →
  let r := run env dotenv f db in
  fst r = Py.Raised x
  ∧ exit_status (fst r) ≠ 0%Z
  ∧ last (trace (snd r)) = Some c
  ∧ stdout (snd r) = []
  ∧ (is_connect c = true →
     trace (snd r) = [c]
     ∧ List.filter is_execute (trace (snd r)) = []
     ∧ connection (snd r) = None
     ∧ database (snd r) = db).
Proof.
  intros Hreq Hff r. subst r. apply credentials_missing_false in Hreq.
  cbn [first_fault script_calls] in Hff.
  run_cases env dotenv f db; try discriminate;
    injection Hff as <- <-;
    (split; [reflexivity | split; [discriminate | split; [reflexivity | split; [reflexivity |]]]]);
    cbn [is_connect]; intros Hc; try discriminate.
  repeat split; reflexivity.
Qed.

Lemma driver_errors_propagate_unchanged_witness :
  let r := run env_detect ∅ connect_fails [] in
  fst r = Py.Raised (Py.DriverError "OperationalError" "could not connect to server")
  ∧ exit_status (fst r) ≠ 0%Z
  ∧ last (trace (snd r)) = Some (CallConnect (connect_args (env_detect ∪ ∅)))
  ∧ stdout (snd r) = []
  ∧ (is_connect (CallConnect (connect_args (env_detect ∪ ∅))) = true →
     trace (snd r) = [CallConnect (connect_args (env_detect ∪ ∅))]
     ∧ List.filter is_execute (trace (snd r)) = []
     ∧ connection (snd r) = None
     ∧ database (snd r) = []).
Proof.
  apply (driver_errors_propagate_unchanged env_detect ∅ connect_fails []).
  - repeat split; eexists; (split; [vm_compute; reflexivity | discriminate]).
  - reflexivity.
Defined.

(** ** The report *)

(** C7.  A run that succeeds has printed exactly one line, the
    confirmation, as its last action: after the commit and after both
    handles were closed; its exit status is 0.  A run that fails has
    printed nothing. *)
Theorem confirmation_printed_once_on_success_only
    (env dotenv : gmap string string) (f : call -> option Py.exn) (db : Pg.catalog) :
  let r := run env dotenv f db in
  (fst r = Py.Ok tt →
   stdout (snd r) = [success_line]
   ∧ exit_status (fst r) = 0%Z
   ∧ trace (snd r)
     = [ CallConnect (connect_args (env ∪ dotenv)); CallCursor;
         CallExecute create_predictions_sql; CallCommit;
         CallCursorClose; CallConnClose; CallPrint success_line ]
   ∧ cursor_open (snd r) = false
   ∧ connection (snd r) = None)
  ∧ (∀ x, fst r = Py.Raised x →
     stdout (snd r) = [] ∧ exit_status (fst r) ≠ 0%Z).
Proof.
  intros r. subst r.
  run_cases env dotenv f db; split; try discriminate;
    try (intros _; repeat split; reflexivity);
    intros x' _; (split; [reflexivity | discriminate]).
Qed.

Lemma confirmation_printed_once_on_success_only_witness :
  let r := run env_detect ∅ no_fault [] in
  stdout (snd r) = [success_line]
  ∧ exit_status (fst r) = 0%Z
  ∧ trace (snd r)
    = [ CallConnect (connect_args (env_detect ∪ ∅)); CallCursor;
        CallExecute create_predictions_sql; CallCommit;
        CallCursorClose; CallConnClose; CallPrint success_line ]
  ∧ cursor_open (snd r) = false
  ∧ connection (snd r) = None.
Proof.
  apply (confirmation_printed_once_on_success_only env_detect ∅ no_fault []).
  vm_compute. reflexivity.
Defined.

(** ** Release of the handles *)

(** C2, as stated, fails: when [cursor.execute] raises, the run that had
    obtained its connection ends with both handles open and without
    having called [cursor.close()] or [conn.close()]. *)
Lemma release_not_guaranteed_when_execute_raises :
  ¬ (reaches_connected env_detect ∅ execute_fails →
     released_in_order (snd (run env_detect ∅ execute_fails []))).
Proof.
  intros Hclaim.
  destruct Hclaim as (Hcursor & _).
  - split; vm_compute; reflexivity.
  - vm_compute in Hcursor. discriminate.
Qed.

(** C2, amended.  On a run that obtained its connection:
    when none of [conn.cursor()], [cursor.execute], [conn.commit()],
    [cursor.close()] and [conn.close()] raises, both handles are released,
    the cursor first and the connection second; when the first call to
    raise is [conn.cursor()], [cursor.execute] or [conn.commit()], the
    script makes no release call at all: the connection is still open
    when the exception leaves the script, and so is the cursor when it
    had been created, that is unless it was [conn.cursor()] that raised. *)
Theorem handles_released_only_when_nothing_raises
    (env dotenv : gmap string string) (f : call -> option Py.exn) (db : Pg.catalog) :
  reaches_connected env dotenv f →
  let w := snd (run env dotenv f db) in
  (f CallCursor = None →
   f (CallExecute create_predictions_sql) = None →
   f CallCommit = None →
   f CallCursorClose = None →
   f CallConnClose = None →
   released_in_order w
   ∧ List.filter is_release (trace w) = [CallCursorClose; CallConnClose])
  ∧ (∀ c x,
       first_fault f (script_calls (connect_args (env ∪ dotenv))) = Some (c, x) →
       c = CallCursor ∨ c = CallExecute create_predictions_sql ∨ c = CallCommit →
       List.filter is_release (trace w) = []
       ∧ connection w ≠ None
       ∧ (c = CallCursor → cursor_open w = false)
       ∧ (c ≠ CallCursor → cursor_open w = true)).
Proof.
  intros [Hguard' Hconnect'] w. subst w. split.
  - intros H1 H2 H3 H4 H5.
    run_cases env dotenv f db; try congruence;
      (split; [| reflexivity]);
      (split; [reflexivity | split; [reflexivity |]]).
    + exists [CallConnect (connect_args (env ∪ dotenv)); CallCursor;
              CallExecute create_predictions_sql; CallCommit], [],
        [CallPrint success_line].
      reflexivity.
    + exists [CallConnect (connect_args (env ∪ dotenv)); CallCursor;
              CallExecute create_predictions_sql; CallCommit], [],
        [CallPrint success_line].
      reflexivity.
  - intros c x Hff Hc. cbn [first_fault script_calls] in Hff.
    run_cases env dotenv f db; try congruence;
      injection Hff as <- <-;
      try (destruct Hc as [Hc | [Hc | Hc]]; discriminate);
      (split; [reflexivity | split; [discriminate | split]]);
      intros Hcur; solve [ reflexivity | discriminate | exfalso; apply Hcur; reflexivity ].
Qed.

Lemma handles_released_only_when_nothing_raises_witness :
  let w := snd (run env_detect ∅ no_fault []) in
  released_in_order w
  ∧ List.filter is_release (trace w) = [CallCursorClose; CallConnClose].
Proof.
  apply (handles_released_only_when_nothing_raises env_detect ∅ no_fault []);
    solve [ reflexivity | split; vm_compute; reflexivity ].
Defined.

(** ** The catalog and the statement *)

Section Catalog.

Variable name : string.

Lemma count_relations_app (a b : Pg.catalog) :
  Pg.count_relations name (a ++ b)
  = (Pg.count_relations name a + Pg.count_relations name b)%nat.
Proof.
  unfold Pg.count_relations. rewrite List.filter_app, length_app. reflexivity.
Qed.

Lemma find_relation_None_count (cat : Pg.catalog) :
  Pg.find_relation name cat = None → Pg.count_relations name cat = 0%nat.
Proof.
  unfold Pg.find_relation, Pg.count_relations.
  induction cat as [|r cat IH]; simpl; [reflexivity|].
  destruct (Pg.named name r); [discriminate | exact IH].
Qed.

Lemma count_zero_of_fresh_name (cat : Pg.catalog) :
  ¬ In name (map Pg.rel_name cat) → Pg.count_relations name cat = 0%nat.
Proof.
  unfold Pg.count_relations.
  induction cat as [|r cat IH]; simpl; [reflexivity|].
  intros Hfresh. destruct (Pg.named name r) eqn:Hr.
  - exfalso. apply Hfresh. left. apply String.eqb_eq. exact Hr.
  - apply IH. intros Hin. apply Hfresh. right. exact Hin.
Qed.

Lemma find_relation_Some_count (cat : Pg.catalog) (t : Pg.relation) :
  Pg.well_formed cat →
  Pg.find_relation name cat = Some t → Pg.count_relations name cat = 1%nat.
Proof.
  unfold Pg.well_formed, Pg.find_relation.
  induction cat as [|r cat IH]; simpl; [discriminate|].
  intros Hwf Hfind. apply NoDup_cons in Hwf as [Hfresh Hwf].
  unfold Pg.count_relations. simpl.
  destruct (Pg.named name r) eqn:Hr.
  - simpl. f_equal. apply count_zero_of_fresh_name.
    apply String.eqb_eq in Hr. rewrite <- Hr.
    intros Hin. apply Hfresh. apply list_elem_of_In. exact Hin.
  - apply IH; assumption.
Qed.

Lemma find_relation_app_fresh (cat : Pg.catalog) (t : Pg.relation) :
  Pg.find_relation name cat = None → Pg.rel_name t = name →
  Pg.find_relation name (cat ++ [t]) = Some t.
Proof.
  unfold Pg.find_relation. intros Hnone Ht.
  induction cat as [|r cat IH]; simpl in *.
  - unfold Pg.named. rewrite Ht, String.eqb_refl. reflexivity.
  - destruct (Pg.named name r); [discriminate | apply IH; exact Hnone].
Qed.

End Catalog.

Lemma ensure_predictions_existing (db : Pg.catalog) (t : Pg.relation) :
  Pg.find_relation "predictions" db = Some t → ensure_predictions db = db.
Proof. unfold ensure_predictions. intros ->. reflexivity. Qed.

Lemma ensure_predictions_fresh (db : Pg.catalog) :
  Pg.find_relation "predictions" db = None →
  ensure_predictions db = db ++ [predictions_table]
  ∧ Pg.find_relation "predictions" (ensure_predictions db) = Some predictions_table.
Proof.
  unfold ensure_predictions. intros Hnone. rewrite Hnone. split; [reflexivity|].
  apply find_relation_app_fresh; [exact Hnone | reflexivity].
Qed.

Lemma ensure_predictions_idempotent (db : Pg.catalog) :
  ensure_predictions (ensure_predictions db) = ensure_predictions db.
Proof.
  destruct (Pg.find_relation "predictions" db) as [t|] eqn:Hfind.
  - rewrite (ensure_predictions_existing db t Hfind).
    apply (ensure_predictions_existing db t Hfind).
  - destruct (ensure_predictions_fresh db Hfind) as [_ Hnow].
    apply (ensure_predictions_existing _ _ Hnow).
Qed.

Lemma ensure_predictions_count (db : Pg.catalog) :
  Pg.well_formed db →
  Pg.count_relations "predictions" (ensure_predictions db) = 1%nat.
Proof.
  intros Hwf. destruct (Pg.find_relation "predictions" db) as [t|] eqn:Hfind.
  - rewrite (ensure_predictions_existing db t Hfind).
    apply (find_relation_Some_count _ db t Hwf Hfind).
  - destruct (ensure_predictions_fresh db Hfind) as [-> _].
    rewrite count_relations_app, (find_relation_None_count _ db Hfind). reflexivity.
Qed.

(** The committed catalog after a run, whatever happens: untouched, or
    with the statement applied. *)
Lemma run_database (env dotenv : gmap string string) (f : call -> option Py.exn)
    (db : Pg.catalog) :
  database (snd (run env dotenv f db)) = db
  ∨ database (snd (run env dotenv f db)) = ensure_predictions db.
Proof. run_cases env dotenv f db; auto. Qed.

Lemma run_database_success (env dotenv : gmap string string) (f : call -> option Py.exn)
    (db : Pg.catalog) :
  fst (run env dotenv f db) = Py.Ok tt →
  database (snd (run env dotenv f db)) = ensure_predictions db.
Proof. run_cases env dotenv f db; intros Hok; try discriminate. reflexivity. Qed.

Lemma run_succeeds (env dotenv : gmap string string) (f : call -> option Py.exn)
    (db : Pg.catalog) :
  required_supplied (env ∪ dotenv) → (∀ c, f c = None) →
  fst (run env dotenv f db) = Py.Ok tt.
Proof.
  intros Hreq Hf. apply credentials_missing_false in Hreq.
  run_cases env dotenv f db; try discriminate;
    try (rewrite Hf in *; discriminate).
  reflexivity.
Qed.

(** ** Idempotence *)

(** C3.  With the three required variables supplied and a database that
    answers every call, a run succeeds, a second run on the database the
    first one left succeeds too and changes nothing, and the database then
    holds exactly one relation named [predictions].  Moreover no run, on
    any database and whatever fails, changes a database that already has
    a [predictions] relation: that relation keeps its columns and rows. *)
Theorem second_run_succeeds_and_changes_nothing
    (env dotenv : gmap string string) (f1 f2 : call -> option Py.exn) (db : Pg.catalog) :
  required_supplied (env ∪ dotenv) →
  (∀ c, f1 c = None) →
  (∀ c, f2 c = None) →
  Pg.well_formed db →
  let first := run env dotenv f1 db in
  let second := run env dotenv f2 (database (snd first)) in
  fst first = Py.Ok tt
  ∧ fst second = Py.Ok tt
  ∧ database (snd second) = database (snd first)
  ∧ Pg.count_relations "predictions" (database (snd second)) = 1%nat
  ∧ (∀ (f : call -> option Py.exn) (db0 : Pg.catalog) (t : Pg.relation),
       Pg.find_relation "predictions" db0 = Some t →
       database (snd (run env dotenv f db0)) = db0
       ∧ Pg.find_relation "predictions" (database (snd (run env dotenv f db0))) = Some t).
Proof.
  intros Hreq Hf1 Hf2 Hwf first second. subst first second.
  pose proof (run_succeeds env dotenv f1 db Hreq Hf1) as Hok1.
  pose proof (run_database_success env dotenv f1 db Hok1) as Hdb1.
  rewrite Hdb1.
  pose proof (run_succeeds env dotenv f2 (ensure_predictions db) Hreq Hf2) as Hok2.
  pose proof (run_database_success env dotenv f2 _ Hok2) as Hdb2.
  rewrite Hdb2, ensure_predictions_idempotent.
  repeat split; try assumption.
  - apply ensure_predictions_count. exact Hwf.
  - destruct (run_database env dotenv f db0) as [-> | ->]; [reflexivity|].
    apply (ensure_predictions_existing db0 t). assumption.
  - destruct (run_database env dotenv f db0) as [-> | ->]; [assumption|].
    rewrite (ensure_predictions_existing db0 t); assumption.
Qed.

Lemma second_run_succeeds_and_changes_nothing_witness :
  let first := run env_detect ∅ no_fault [] in
  let second := run env_detect ∅ no_fault (database (snd first)) in
  fst first = Py.Ok tt
  ∧ fst second = Py.Ok tt
  ∧ database (snd second) = database (snd first)
  ∧ Pg.count_relations "predictions" (database (snd second)) = 1%nat
  ∧ (∀ (f : call -> option Py.exn) (db0 : Pg.catalog) (t : Pg.relation),
       Pg.find_relation "predictions" db0 = Some t →
       database (snd (run env_detect ∅ f db0)) = db0
       ∧ Pg.find_relation "predictions" (database (snd (run env_detect ∅ f db0))) = Some t).
Proof.
  apply (second_run_succeeds_and_changes_nothing env_detect ∅ no_fault no_fault []).
  - repeat split; eexists; (split; [vm_compute; reflexivity | discriminate]).
  - reflexivity.
  - reflexivity.
  - apply NoDup_nil. exact I.
Defined.

(** ** Inserting rows *)

Lemma insert_rejects_violation (ck : Pg.checks) (given : list (string * Pg.datum))
    (t : Pg.relation) (c : Pg.column) :
  In c (Pg.rel_columns t) → Pg.violates given c = true →
  ∃ x, Pg.insert ck given t = Py.Raised x.
Proof.
  intros Hin Hv. unfold Pg.insert.
  destruct (Pg.input_fault ck given (Pg.rel_columns t)) as [e|]; [eexists; reflexivity|].
  destruct (List.find (Pg.violates given) (Pg.rel_columns t)) as [c'|] eqn:Hfind.
  - eexists. reflexivity.
  - pose proof (List.find_none _ _ Hfind c Hin) as Hc. congruence.
Qed.

(** ** The shape of the table *)

(** C4.  After a successful run on a database that had no [predictions]
    relation, the catalog holds a relation [predictions] with no rows and
    exactly these ten columns, in this order: [id], an integer fed by a
    sequence, the primary key; [prediction_id], a UUID; [image_path] and
    [class_name], nullable text; [confidence], a nullable double
    precision number; [bbox_left], [bbox_top], [bbox_width] and
    [bbox_height], nullable integers; [created_at], a timestamp whose
    default is the time of insertion. *)
Theorem created_table_has_the_ten_columns
    (env dotenv : gmap string string) (f : call -> option Py.exn) (db : Pg.catalog) :
  Pg.find_relation "predictions" db = None →
  fst (run env dotenv f db) = Py.Ok tt →
  ∃ t,
    Pg.find_relation "predictions" (database (snd (run env dotenv f db))) = Some t
    ∧ Pg.rel_name t = "predictions"
    ∧ Pg.rel_rows t = []
    ∧ length (Pg.rel_columns t) = 10%nat
    ∧ Pg.rel_columns t
      = [ Pg.Column "id" Pg.Integer false true (Some Pg.DefaultNextval);
          Pg.Column "prediction_id" Pg.Uuid false false None;
          Pg.Column "image_path" Pg.Text true false None;
          Pg.Column "class_name" Pg.Text true false None;
          Pg.Column "confidence" Pg.DoublePrecision true false None;
          Pg.Column "bbox_left" Pg.Integer true false None;
          Pg.Column "bbox_top" Pg.Integer true false None;
          Pg.Column "bbox_width" Pg.Integer true false None;
          Pg.Column "bbox_height" Pg.Integer true false None;
          Pg.Column "created_at" Pg.Timestamp true false (Some Pg.DefaultNow) ].
Proof.
  intros Hnone Hok.
  rewrite (run_database_success env dotenv f db Hok).
  destruct (ensure_predictions_fresh db Hnone) as [_ Hfind].
  exists predictions_table. split; [exact Hfind|].
  repeat split; reflexivity.
Qed.

Lemma created_table_has_the_ten_columns_witness :
  ∃ t,
    Pg.find_relation "predictions" (database (snd (run env_detect ∅ no_fault []))) = Some t
    ∧ Pg.rel_name t = "predictions"
    ∧ Pg.rel_rows t = []
    ∧ length (Pg.rel_columns t) = 10%nat
    ∧ Pg.rel_columns t
      = [ Pg.Column "id" Pg.Integer false true (Some Pg.DefaultNextval);
          Pg.Column "prediction_id" Pg.Uuid false false None;
          Pg.Column "image_path" Pg.Text true false None;
          Pg.Column "class_name" Pg.Text true false None;
          Pg.Column "confidence" Pg.DoublePrecision true false None;
          Pg.Column "bbox_left" Pg.Integer true false None;
          Pg.Column "bbox_top" Pg.Integer true false None;
          Pg.Column "bbox_width" Pg.Integer true false None;
          Pg.Column "bbox_height" Pg.Integer true false None;
          Pg.Column "created_at" Pg.Timestamp true false (Some Pg.DefaultNow) ].
Proof.
  apply (created_table_has_the_ten_columns env_detect ∅ no_fault []).
  - reflexivity.
  - vm_compute. reflexivity.
Defined.

(** C9.  In the table a successful run creates, [prediction_id] is not
    nullable while [image_path], [class_name], [confidence] and the four
    [bbox_] columns are: a row that gives no [prediction_id], or gives
    NULL for it, is rejected whatever else it gives and whatever the
    other checks of the engine say. *)
Theorem prediction_id_is_not_null
    (env dotenv : gmap string string) (f : call -> option Py.exn) (db : Pg.catalog) :
  Pg.find_relation "predictions" db = None →
  fst (run env dotenv f db) = Py.Ok tt →
  ∃ t,
    Pg.find_relation "predictions" (database (snd (run env dotenv f db))) = Some t
    ∧ (∀ c, In c (Pg.rel_columns t) →
         (Pg.col_name c = "prediction_id" → Pg.col_nullable c = false)
         ∧ (In (Pg.col_name c)
              ["image_path"; "class_name"; "confidence";
               "bbox_left"; "bbox_top"; "bbox_width"; "bbox_height"] →
            Pg.col_nullable c = true))
    ∧ (∀ ck given,
         Pg.assoc "prediction_id" given = None
         ∨ Pg.assoc "prediction_id" given = Some Pg.Null →
         ∃ x, Pg.insert ck given t = Py.Raised x).
Proof.
  intros Hnone Hok.
  rewrite (run_database_success env dotenv f db Hok).
  destruct (ensure_predictions_fresh db Hnone) as [_ Hfind].
  exists predictions_table. split; [exact Hfind|]. split.
  - intros c Hc. simpl in Hc.
    repeat (destruct Hc as [<- | Hc]; [split; simpl; intros Hn;
      solve [ reflexivity | discriminate
            | repeat (destruct Hn as [Hn | Hn]; [discriminate|]); destruct Hn ] |]).
    destruct Hc.
  - intros ck given Hgiven.
    apply (insert_rejects_violation ck given predictions_table
             (Pg.Column "prediction_id" Pg.Uuid false false None)).
    + simpl. tauto.
    + unfold Pg.violates, Pg.stored_value. simpl.
      destruct Hgiven as [-> | ->]; reflexivity.
Qed.

Lemma prediction_id_is_not_null_witness :
  ∃ t,
    Pg.find_relation "predictions" (database (snd (run env_detect ∅ no_fault []))) = Some t
    ∧ (∀ c, In c (Pg.rel_columns t) →
         (Pg.col_name c = "prediction_id" → Pg.col_nullable c = false)
         ∧ (In (Pg.col_name c)
              ["image_path"; "class_name"; "confidence";
               "bbox_left"; "bbox_top"; "bbox_width"; "bbox_height"] →
            Pg.col_nullable c = true))
    ∧ (∀ ck given,
         Pg.assoc "prediction_id" given = None
         ∨ Pg.assoc "prediction_id" given = Some Pg.Null →
         ∃ x, Pg.insert ck given t = Py.Raised x).
Proof.
  apply (prediction_id_is_not_null env_detect ∅ no_fault []).
  - reflexivity.
  - vm_compute. reflexivity.
Defined.

(** ** The footprint of a run *)

(** C8, as stated, fails: a run that the guard stops sends no statement
    to the database, not one. *)
Lemma refused_run_executes_no_statement :
  ¬ executes_exactly_one (snd (run env_without_db ∅ no_fault [])).
Proof. unfold executes_exactly_one. vm_compute. discriminate. Qed.

(** C8, amended.  Every run sends at most one statement to the database,
    the CREATE TABLE IF NOT EXISTS of the script, and sends it exactly
    when the guard lets the run through and both [psycopg2.connect] and
    [conn.cursor()] return.  Every run leaves the committed database
    either as it was or, when it had no [predictions] relation, extended
    at its end by the empty [predictions] table: every other relation is
    still there with its columns and its rows, and no row was added. *)
Theorem at_most_one_statement_and_one_schema_change
    (env dotenv : gmap string string) (f : call -> option Py.exn) (db : Pg.catalog) :
  let w := snd (run env dotenv f db) in
  (List.filter is_execute (trace w) = []
   ∨ List.filter is_execute (trace w) = [CallExecute create_predictions_sql])
  ∧ (executes_exactly_one w ↔ reaches_connected env dotenv f ∧ f CallCursor = None)
  ∧ Pg.parse create_predictions_sql
    = Some (Pg.CreateTable true "predictions" predictions_columns)
  ∧ (database w = db
     ∨ (Pg.find_relation "predictions" db = None
        ∧ database w = db ++ [Pg.Relation "predictions" (map Pg.elaborate predictions_columns) []])).
Proof.
  intros w. subst w. split; [|split; [|split]].
  - run_cases env dotenv f db; auto.
  - unfold executes_exactly_one, reaches_connected.
    run_cases env dotenv f db; cbn [List.filter is_execute length];
      split; try (intros [[? ?] ?]); try intros ?; try discriminate; try congruence; auto.
  - apply parse_create_predictions.
  - destruct (run_database env dotenv f db) as [-> | ->]; [left; reflexivity|].
    destruct (Pg.find_relation "predictions" db) as [t|] eqn:Hfind.
    + left. apply (ensure_predictions_existing db t Hfind).
    + right. split; [reflexivity|]. apply (ensure_predictions_fresh db Hfind).
Qed.

(** * Further properties of the script *)

(** ** The order of the calls *)

(** X1.  With the required variables supplied, the calls of a run are
    the seven calls of the script in the order of the source, cut right
    after the first one that raises; the run ends in the exception of
    that call, and normally when none raises. *)
Theorem run_follows_script_order
    (env dotenv : gmap string string) (f : call -> option Py.exn) (db : Pg.catalog) :
  required_supplied (env ∪ dotenv) →
  let r := run env dotenv f db in
  let cs := script_calls (connect_args (env ∪ dotenv)) in
  trace (snd r) = upto_first_fault f cs
  ∧ fst r = match first_fault f cs with
            | Some (_, x) => Py.Raised x
            | None => Py.Ok tt
            end.
Proof.
  intros Hreq r cs. subst r cs. apply credentials_missing_false in Hreq.
  cbn [upto_first_fault first_fault script_calls].
  run_cases env dotenv f db; try discriminate; split; reflexivity.
Qed.

Lemma run_follows_script_order_witness :
  let r := run env_detect ∅ execute_fails [] in
  let cs := script_calls (connect_args (env_detect ∪ ∅)) in
  trace (snd r) = upto_first_fault execute_fails cs
  ∧ fst r = match first_fault execute_fails cs with
            | Some (_, x) => Py.Raised x
            | None => Py.Ok tt
            end.
Proof.
  apply (run_follows_script_order env_detect ∅ execute_fails []).
  repeat split; eexists; (split; [vm_compute; reflexivity | discriminate]).
Defined.

(** ** The commit *)

(** X3.  The commit decides what the database keeps.  When the first call
    to raise is one of [psycopg2.connect], [conn.cursor()],
    [cursor.execute] or [conn.commit()], the committed database is as it
    was before the run; when [conn.commit()] itself raises, the table
    exists only in the view of the connection.  When the first call to
    raise comes after the commit ([cursor.close()], [conn.close()] or
    [print]), the statement is committed although the run exits with a
    non-zero status and prints no confirmation. *)
Theorem commit_decides_the_database
    (env dotenv : gmap string string) (f : call -> option Py.exn) (db : Pg.catalog)
    (c : call) (x : Py.exn) :
  required_supplied (env ∪ dotenv) →
  first_fault f (script_calls (connect_args (env ∪ dotenv))) = Some (c, x) →
  let r := run env dotenv f db in
  (precedes_commit_return c = true → database (snd r) = db)
  ∧ (c = CallCommit → connection (snd r) = Some (ensure_predictions db))
  ∧ (precedes_commit_return c = false →
     database (snd r) = ensure_predictions db
     ∧ exit_status (fst r) ≠ 0%Z
     ∧ stdout (snd r) = []).
Proof.
  intros Hreq Hff r. subst r. apply credentials_missing_false in Hreq.
  cbn [first_fault script_calls] in Hff.
  run_cases env dotenv f db; try discriminate;
    injection Hff as <- <-; cbn [precedes_commit_return];
    (split; [| split]); intros Hc; try discriminate; try reflexivity;
    (split; [reflexivity | split; [discriminate | reflexivity]]).
Qed.

Lemma commit_decides_the_database_witness :
  let r := run env_detect ∅ cursor_close_fails [] in
  (precedes_commit_return CallCursorClose = true → database (snd r) = [])
  ∧ (CallCursorClose = CallCommit → connection (snd r) = Some (ensure_predictions []))
  ∧ (precedes_commit_return CallCursorClose = false →
     database (snd r) = ensure_predictions []
     ∧ exit_status (fst r) ≠ 0%Z
     ∧ stdout (snd r) = []).
Proof.
  apply (commit_decides_the_database env_detect ∅ cursor_close_fails []
           CallCursorClose (Py.DriverError "InterfaceError" "cursor.close failed")).
  - repeat split; eexists; (split; [vm_compute; reflexivity | discriminate]).
  - reflexivity.
Defined.

(** X8.  The connection is still open at the end of a run exactly when
    the script obtained it and one of [conn.cursor()], [cursor.execute],
    [conn.commit()], [cursor.close()] and [conn.close()] raises: an
    exception in [cursor.close()] skips [conn.close()] like any other. *)
Theorem connection_left_open_iff
    (env dotenv : gmap string string) (f : call -> option Py.exn) (db : Pg.catalog) :
  connection (snd (run env dotenv f db)) ≠ None
  ↔ reaches_connected env dotenv f
    ∧ (f CallCursor ≠ None ∨ f (CallExecute create_predictions_sql) ≠ None
       ∨ f CallCommit ≠ None ∨ f CallCursorClose ≠ None ∨ f CallConnClose ≠ None).
Proof.
  unfold reaches_connected.
  run_cases env dotenv f db; split;
    try (intros _; split; [split; reflexivity | intuition discriminate]);
    try (intros Hopen; exfalso; apply Hopen; reflexivity);
    try (intros [[? ?] ?]; discriminate);
    try (intros [_ Hany]; intuition congruence);
    try (intros _; discriminate).
Qed.

(** ** Running again *)





(** X4.  A failed run does no harm to the next one.  Whatever the first
    run raised at, a run that follows it in which nothing raises succeeds
    and leaves the database as a single successful run would have: the
    original relations and exactly one [predictions] relation. *)
Theorem rerun_after_any_failure_succeeds
    (env dotenv : gmap string string) (f1 f2 : call -> option Py.exn) (db : Pg.catalog) :
  required_supplied (env ∪ dotenv) →
  (∀ c, f2 c = None) →
  Pg.well_formed db →
  let first := run env dotenv f1 db in
  let second := run env dotenv f2 (database (snd first)) in
  fst second = Py.Ok tt
  ∧ database (snd second) = ensure_predictions db
  ∧ database (snd second) = database (snd (run env dotenv f2 db))
  ∧ Pg.count_relations "predictions" (database (snd second)) = 1%nat.
Proof.
  intros Hreq Hf2 Hwf first second. subst first second.
  pose proof (run_succeeds env dotenv f2 (database (snd (run env dotenv f1 db))) Hreq Hf2)
    as Hok.
  pose proof (run_database_success env dotenv f2 _ Hok) as Hdb.
  pose proof (run_database_success env dotenv f2 db (run_succeeds env dotenv f2 db Hreq Hf2))
    as Hdirect.
  assert (Hsame : ensure_predictions (database (snd (run env dotenv f1 db)))
                  = ensure_predictions db).
  { destruct (run_database env dotenv f1 db) as [-> | ->];
      [reflexivity | apply ensure_predictions_idempotent]. }
  rewrite Hdb, Hdirect, Hsame.
  repeat split; try assumption.
  apply ensure_predictions_count. exact Hwf.
Qed.

Lemma rerun_after_any_failure_succeeds_witness :
  let first := run env_detect ∅ execute_fails [images_table] in
  let second := run env_detect ∅ no_fault (database (snd first)) in
  fst second = Py.Ok tt
  ∧ database (snd second) = ensure_predictions [images_table]
  ∧ database (snd second) = database (snd (run env_detect ∅ no_fault [images_table]))
  ∧ Pg.count_relations "predictions" (database (snd second)) = 1%nat.
Proof.
  apply (rerun_after_any_failure_succeeds env_detect ∅ execute_fails no_fault [images_table]).
  - repeat split; eexists; (split; [vm_compute; reflexivity | discriminate]).
  - reflexivity.
  - apply NoDup_singleton.
Defined.

(** ** The [.env] file *)

Lemma getenv_resolve (env dotenv : gmap string string) (key : string) (default : Py.value) :
  getenv (env ∪ dotenv) key default = resolve env dotenv key default.
Proof.
  unfold getenv, resolve. destruct (env !! key) as [v|] eqn:Henv.
  - rewrite (lookup_union_Some_l env dotenv key v Henv). reflexivity.
  - rewrite (lookup_union_r env dotenv key Henv). reflexivity.
Qed.

(** X7.  [load_dotenv()] runs before the variables are read and does not
    override: each of the five arguments of [psycopg2.connect] is the
    value of its variable in the process environment when it is set
    there, otherwise its value in the [.env] file, otherwise its default.
    A credential that only the [.env] file supplies passes the
    validation. *)
Theorem environment_wins_over_dotenv
    (env dotenv : gmap string string) (f : call -> option Py.exn) (db : Pg.catalog) :
  required_supplied (env ∪ dotenv) →
  ∃ rest,
    trace (snd (run env dotenv f db))
    = CallConnect
        (ConnParams (resolve env dotenv "POSTGRES_DB" Py.None_)
                    (resolve env dotenv "POSTGRES_USER" Py.None_)
                    (resolve env dotenv "POSTGRES_PASSWORD" Py.None_)
                    (resolve env dotenv "POSTGRES_HOST" (Py.Str "localhost"))
                    (resolve env dotenv "POSTGRES_PORT" (Py.Int 5432))) :: rest.
Proof.
  intros Hreq. apply credentials_missing_false in Hreq.
  rewrite <- !getenv_resolve. fold (connect_args (env ∪ dotenv)).
  run_cases env dotenv f db; try discriminate; eexists; reflexivity.
Qed.

Lemma environment_wins_over_dotenv_witness :
  ∃ rest,
    trace (snd (run env_without_db dotenv_detect no_fault []))
    = CallConnect
        (ConnParams (resolve env_without_db dotenv_detect "POSTGRES_DB" Py.None_)
                    (resolve env_without_db dotenv_detect "POSTGRES_USER" Py.None_)
                    (resolve env_without_db dotenv_detect "POSTGRES_PASSWORD" Py.None_)
                    (resolve env_without_db dotenv_detect "POSTGRES_HOST" (Py.Str "localhost"))
                    (resolve env_without_db dotenv_detect "POSTGRES_PORT" (Py.Int 5432)))
      :: rest.
Proof.
  apply (environment_wins_over_dotenv env_without_db dotenv_detect no_fault []).
  repeat split; eexists; (split; [vm_compute; reflexivity | discriminate]).
Defined.

Example dotenv_scenario_arguments :
  ConnParams (resolve env_without_db dotenv_detect "POSTGRES_DB" Py.None_)
             (resolve env_without_db dotenv_detect "POSTGRES_USER" Py.None_)
             (resolve env_without_db dotenv_detect "POSTGRES_PASSWORD" Py.None_)
             (resolve env_without_db dotenv_detect "POSTGRES_HOST" (Py.Str "localhost"))
             (resolve env_without_db dotenv_detect "POSTGRES_PORT" (Py.Int 5432))
  = ConnParams (Py.Str "detect") (Py.Str "u") (Py.Str "p")
               (Py.Str "localhost") (Py.Int 5432).
Proof. vm_compute. reflexivity. Qed.
